(** * gpt_researcher.utils.llm: chat completion and subtopic construction

    A shallow embedding of [create_chat_completion] and [construct_subtopics]
    from [gpt_researcher/utils/llm.py].  Python dictionaries are finite maps
    keyed by strings, exceptions are values of an error type, and the calls
    that leave the module (provider resolution, the provider's chat call, the
    cost callback, the langchain chain) are fields of an environment record
    whose outcomes are arbitrary. *)

From Stdlib Require Import ZArith QArith.QArith_base Lia.
From stdpp Require Import base option list gmap strings pretty.

Close Scope Q_scope.
Open Scope Z_scope.

(** ** Python values carried through keyword dictionaries *)

(** A float is only ever carried, never computed with: it is kept as the
    rational its literal denotes. *)
Inductive pyval :=
| PNone
| PStr (s : string)
| PInt (z : Z)
| PFloat (q : Q).

Definition of_opt_str (o : option string) : pyval :=
  match o with Some s => PStr s | None => PNone end.

Definition of_opt_int (o : option Z) : pyval :=
  match o with Some z => PInt z | None => PNone end.

Definition of_opt_float (o : option Q) : pyval :=
  match o with Some q => PFloat q | None => PNone end.

(** [needle in hay] on Python strings. *)
Fixpoint str_contains (needle hay : string) : bool :=
  String.prefix needle hay ||
  match hay with
  | EmptyString => false
  | String _ hay' => str_contains needle hay'
  end.

(** [str(x)] inside an f-string, for an optional string. *)
Definition fmt_opt_str (o : option string) : string :=
  match o with Some s => s | None => "None" end.

(** [{**base, **extra}]: the entries of [extra] are written over [base]. *)
Definition dict_spread (base extra : gmap string pyval) : gmap string pyval :=
  extra ∪ base.

(** [d or {}] for an optional dictionary; an empty dictionary is falsy and
    is replaced by a new empty one, which has the same entries. *)
Definition or_empty (d : option (gmap string pyval)) : gmap string pyval :=
  default ∅ d.

(** ** Exceptions *)

(** The classes that matter to the two functions.  [OtherException] stands
    for any further subclass of [Exception] raised by a collaborator;
    [BaseExceptionOnly] for a class deriving from [BaseException] alone
    (KeyboardInterrupt, SystemExit), which [except Exception] lets through. *)
Inductive exn_class :=
| ValueError
| RuntimeError
| TypeError
| OtherException (name : string)
| BaseExceptionOnly (name : string).

Definition is_Exception (c : exn_class) : bool :=
  match c with
  | BaseExceptionOnly _ => false
  | _ => true
  end.

Record exn := mk_exn { exn_cls : exn_class; exn_msg : string }.

Inductive res (A : Type) :=
| Val (a : A)
| Exc (e : exn).
Arguments Val {A} a.
Arguments Exc {A} e.

(** ** State and error monad *)

Definition M (S A : Type) : Type := S -> res A * S.

Definition ret {S A} (a : A) : M S A := fun s => (Val a, s).

Definition raise {S A} (e : exn) : M S A := fun s => (Exc e, s).

Definition bind {S A B} (m : M S A) (k : A -> M S B) : M S B :=
  fun s =>
    match m s with
    | (Val a, s') => k a s'
    | (Exc e, s') => (Exc e, s')
    end.

#[global] Instance M_ret {S} : MRet (M S) := fun A => @ret S A.
#[global] Instance M_bind {S} : MBind (M S) := fun A B k m => bind m k.

(** An outcome decided outside the module, with no effect on the state. *)
Definition lift {S A} (r : res A) : M S A := fun s => (r, s).

(** [try: body except Exception as e: handler e].  State changes made before
    the exception remain. *)
Definition try_except {S A} (body : M S A) (handler : exn -> M S A) : M S A :=
  fun s =>
    match body s with
    | (Val a, s') => (Val a, s')
    | (Exc e, s') =>
        if is_Exception (exn_cls e) then handler e s' else (Exc e, s')
    end.

(** What one pass through a loop body asks for. *)
Inductive ctl (A : Type) :=
| Continue
| Return (a : A).
Arguments Continue {A}.
Arguments Return {A} a.

(** [for i in xs: body i] followed by [after]; a [return] inside the body
    leaves the function at once. *)
Fixpoint for_in {S A} (xs : list nat) (body : nat -> M S (ctl A))
    (after : M S A) : M S A :=
  match xs with
  | [] => after
  | i :: xs' =>
      c ← body i;
      match c with
      | Return a => ret a
      | Continue => for_in xs' body after
      end
  end.

Definition range (n : nat) : list nat := seq 0 n.

(** ** create_chat_completion *)

Record ChatMessage := { role : string; content : string }.

(** What the call does, in the order it happens.  [EvGetLLM] records that
    the call [get_llm(llm_provider, **kwargs)] is made, whether or not its
    arguments bind; the other events are calls that leave the module. *)
Inductive event :=
| EvGetLLM (llm_provider : option string) (kwargs : gmap string pyval)
| EvChatResponse (messages : list ChatMessage) (stream : bool)
    (websocket : option nat)
| EvEstimateCost (input_content output_content : string)
| EvCostCallback (llm_costs : Q)
| EvLogError (msg : string).

Definition trace := list event.

Definition emit (e : event) : M trace unit := fun t => (Val tt, t ++ [e]).

(** Modelled from the spec: the [Subtopics] schema of [.validators] is not
    among the sources.  The specification describes a Subtopic as a
    task-defined structured record and a SubtopicSet as an ordered sequence
    of them, with no further constraint. *)
Record Subtopic := { subtopic_task : string }.

(** List objects live in a store and are passed by reference. *)
Definition loc := positive.

(** The input dictionary handed to [chain.invoke]. *)
Record chain_input := {
  in_task : string;
  in_data : string;
  in_subtopics : loc;
  in_max_subtopics : Z
}.

(** The collaborators of the module; objects they build (parser, prompt,
    provider, model) are handles.  [from_provider] is
    [GenericLLMProvider.from_provider].  [get_chat_response] sees the events
    so far, so its answer may change from one attempt to the next.
    [estimate_llm_cost] lives in [.costs], which is not among the sources;
    the specification gives it as pure and without failure modes.  [py_str]
    is the builtin [str] on the message list.  [chain_invoke] stands for
    [(prompt | model | parser).invoke(input)]: it receives the reference to
    the caller's list inside [input] and may read or write the store.
    [print_outcome e] is what printing the exception [e] to the standard
    output does: [None] when the line goes out, [Some (e', written)] when
    [str(e)], the encoding or the stream raises [e'] after [written] went
    out. *)
Record Env := {
  from_provider : option string -> gmap string pyval -> res nat;
  get_chat_response :
    nat -> trace -> list ChatMessage -> bool -> option nat -> res string;
  estimate_llm_cost : string -> string -> Q;
  py_str : list ChatMessage -> string;
  PydanticOutputParser : res nat;
  get_format_instructions : nat -> res string;
  generate_subtopics_prompt : res string;
  PromptTemplate : string -> list string -> string -> res nat;
  provider_llm : nat -> res nat;
  chain_invoke :
    nat -> nat -> nat -> chain_input -> gmap loc (list Subtopic) ->
    res (list Subtopic) * gmap loc (list Subtopic);
  print_outcome : exn -> option (exn * list string)
}.

(** [get_llm(llm_provider, **kwargs)]: a key [llm_provider] among the
    keyword arguments collides with the positional parameter. *)
Definition get_llm (E : Env) (llm_provider : option string)
    (kwargs : gmap string pyval) : res nat :=
  match kwargs !! "llm_provider" with
  | Some _ =>
      Exc (mk_exn TypeError
             "get_llm() got multiple values for argument 'llm_provider'")
  | None => from_provider E llm_provider kwargs
  end.

(** A cost callback is any object: [cb_bool] is its truth value, whose
    test may itself raise, and [cb_call] what calling it with a cost does.
    A function is always true. *)
Record callback := {
  cb_bool : res bool;
  cb_call : Q -> res unit
}.

(** [max_tokens is not None and max_tokens > 16001] *)
Definition max_tokens_over_limit (max_tokens : option Z) : bool :=
  match max_tokens with
  | Some n => 16001 <? n
  | None => false
  end.

(** ['o3' in model or 'o1' in model] *)
Definition is_reasoning_model (model : string) : bool :=
  str_contains "o3" model || str_contains "o1" model.

(** The dictionary [kwargs] as it stands when [get_llm] is called. *)
Definition completion_kwargs (model : string)
    (llm_kwargs : option (gmap string pyval)) (temperature : option Q)
    (max_tokens : option Z) (reasoning_effort : option string)
  : gmap string pyval :=
  let kwargs := dict_spread {["model" := PStr model]} (or_empty llm_kwargs) in
  if is_reasoning_model model then
    <["reasoning_effort" := of_opt_str reasoning_effort]> kwargs
  else
    <["max_tokens" := of_opt_int max_tokens]>
      (<["temperature" := of_opt_float temperature]> kwargs).

(** [str(x)] inside an f-string, for an optional integer. *)
Definition fmt_opt_int (o : option Z) : string :=
  match o with Some n => pretty n | None => "None" end.

Definition max_tokens_message (max_tokens : option Z) : string :=
  "Max tokens cannot be more than 16,000, but got " +:+ fmt_opt_int max_tokens.

Definition failed_message (llm_provider : option string) : string :=
  "Failed to get response from " +:+ fmt_opt_str llm_provider +:+ " API".

(** The call [get_llm(llm_provider, **kwargs)], recorded. *)
Definition resolve_provider (E : Env) (llm_provider : option string)
    (kwargs : gmap string pyval) : M trace nat :=
  emit (EvGetLLM llm_provider kwargs);;
  lift (get_llm E llm_provider kwargs).

(** [await provider.get_chat_response(messages, stream, websocket)] *)
Definition chat_response (E : Env) (provider : nat)
    (messages : list ChatMessage) (stream : bool) (websocket : option nat)
  : M trace string :=
  fun t =>
    (get_chat_response E provider t messages stream websocket,
     t ++ [EvChatResponse messages stream websocket]).

(** One pass through the body of the attempt loop; [if cost_callback:]
    tests the truth value of the callback, [None] being false. *)
Definition attempt (E : Env) (provider : nat)
    (messages : list ChatMessage) (stream : bool) (websocket : option nat)
    (cost_callback : option callback) : M trace (ctl string) :=
  response ← chat_response E provider messages stream websocket;
  match cost_callback with
  | Some cb =>
      truthy ← lift (cb_bool cb);
      if (truthy : bool) then
        emit (EvEstimateCost (py_str E messages) response);;
        let llm_costs := estimate_llm_cost E (py_str E messages) response in
        emit (EvCostCallback llm_costs);;
        lift (cb_call cb llm_costs)
      else ret tt
  | None => ret tt
  end;;
  ret (Return response).

Definition create_chat_completion (E : Env)
    (messages : list ChatMessage) (model : option string)
    (temperature : option Q) (max_tokens : option Z)
    (llm_provider : option string) (stream : bool) (websocket : option nat)
    (llm_kwargs : option (gmap string pyval))
    (cost_callback : option callback) (reasoning_effort : option string)
  : M trace string :=
  match model with
  | None => raise (mk_exn ValueError "Model cannot be None")
  | Some model =>
      if max_tokens_over_limit max_tokens then
        raise (mk_exn ValueError (max_tokens_message max_tokens))
      else
        let kwargs :=
          completion_kwargs model llm_kwargs temperature max_tokens
            reasoning_effort in
        provider ← resolve_provider E llm_provider kwargs;
        for_in (range 10)
          (fun _ =>
             attempt E provider messages stream websocket cost_callback)
          (emit (EvLogError (failed_message llm_provider));;
           raise (mk_exn RuntimeError (failed_message llm_provider)))
  end.

(** The defaults of the signature. *)
Definition default_temperature : option Q := Some (4 # 10)%Q.
Definition default_max_tokens : option Z := Some 4000.
Definition default_reasoning_effort : option string := Some "low".

(** ** construct_subtopics *)

Module Config.
Record t := {
  smart_llm_model : option string;
  smart_llm_provider : option string;
  smart_token_limit : option Z;
  temperature : option Q;
  llm_kwargs : option (gmap string pyval);
  max_subtopics : Z
}.
End Config.

(** The store of list objects and what has been printed. *)
Record pystate := {
  heap : gmap loc (list Subtopic);
  stdout : list string
}.

(** What the function hands back: the parsed [Subtopics] object, or a
    reference to a list object. *)
Inductive pyobj :=
| ObjSubtopics (parsed : list Subtopic)
| ObjList (l : loc).

(** [print(a, e)] writes [a] and [str(e)], separated by a blank, unless
    the environment makes it raise. *)
Definition print (E : Env) (a : string) (e : exn) : M pystate unit :=
  fun st =>
    match print_outcome E e with
    | None =>
        (Val tt,
         {| heap := heap st;
            stdout := stdout st ++ [a +:+ " " +:+ exn_msg e] |})
    | Some (e', written) =>
        (Exc e', {| heap := heap st; stdout := stdout st ++ written |})
    end.

(** ['o3' in m or 'o1' in m] where [m] may be [None], which is not
    iterable. *)
Definition is_reasoning_opt {S} (m : option string) : M S bool :=
  match m with
  | Some m => ret (is_reasoning_model m)
  | None =>
      raise (mk_exn TypeError "argument of type 'NoneType' is not iterable")
  end.

Definition subtopics_kwargs (config : Config.t) (reasoning : bool)
  : gmap string pyval :=
  let kwargs :=
    dict_spread {["model" := of_opt_str (Config.smart_llm_model config)]}
      (or_empty (Config.llm_kwargs config)) in
  if reasoning then
    <["reasoning_effort" := PStr "high"]> kwargs
  else
    <["max_tokens" := of_opt_int (Config.smart_token_limit config)]>
      (<["temperature" := of_opt_float (Config.temperature config)]> kwargs).

(** [chain.invoke({...})] *)
Definition invoke_chain (E : Env) (prompt model parser : nat)
    (input : chain_input) : M pystate (list Subtopic) :=
  fun st =>
    let '(r, h) := chain_invoke E prompt model parser input (heap st) in
    (r, {| heap := h; stdout := stdout st |}).

(** The body of the [try] block. *)
Definition construct_subtopics_try (E : Env) (task data : string)
    (config : Config.t) (subtopics : loc) : M pystate pyobj :=
  parser ← lift (PydanticOutputParser E);
  template ← lift (generate_subtopics_prompt E);
  instructions ← lift (get_format_instructions E parser);
  prompt ← lift (PromptTemplate E template
                   ["task"; "data"; "subtopics"; "max_subtopics"]
                   instructions);
  reasoning ← is_reasoning_opt (Config.smart_llm_model config);
  let kwargs := subtopics_kwargs config reasoning in
  provider ← lift (get_llm E (Config.smart_llm_provider config) kwargs);
  model ← lift (provider_llm E provider);
  output ← invoke_chain E prompt model parser
             {| in_task := task; in_data := data; in_subtopics := subtopics;
                in_max_subtopics := Config.max_subtopics config |};
  ret (ObjSubtopics output).

Definition construct_subtopics (E : Env) (task data : string)
    (config : Config.t) (subtopics : loc) : M pystate pyobj :=
  try_except
    (construct_subtopics_try E task data config subtopics)
    (fun e =>
       print E "Exception in parsing subtopics : " e;;
       ret (ObjList subtopics)).

(** The length of what was handed back, read through the store for a
    reference. *)
Definition result_length (st : pystate) (o : pyobj) : option nat :=
  match o with
  | ObjSubtopics parsed => Some (length parsed)
  | ObjList l => length <$> heap st !! l
  end.

(** The default list object of the signature ([subtopics: list = []]): it
    is created once, when the function is defined, and every call that
    omits the argument receives the same reference. *)
Definition default_subtopics : loc := 1%positive.

Definition initial_state : pystate :=
  {| heap := {[default_subtopics := []]}; stdout := [] |}.

(** ** Observations on traces *)

Definition is_cost_callback (e : event) : bool :=
  match e with EvCostCallback _ => true | _ => false end.

Definition is_estimate (e : event) : bool :=
  match e with EvEstimateCost _ _ => true | _ => false end.

Definition count_events (p : event -> bool) (t : trace) : nat :=
  length (List.filter p t).

(** ** Concrete collaborators *)

(** A provider that answers "hello" at once, and an estimator with a fixed
    price. *)
Definition env_hello : Env := {|
  from_provider := fun _ _ => Val 7%nat;
  get_chat_response := fun _ _ _ _ _ => Val "hello";
  estimate_llm_cost := fun _ _ => (1 # 100)%Q;
  py_str := fun _ => "[]";
  PydanticOutputParser := Val 1%nat;
  get_format_instructions := fun _ => Val "Return a JSON object.";
  generate_subtopics_prompt := Val "{task} {data} {subtopics} {max_subtopics}";
  PromptTemplate := fun _ _ _ => Val 2%nat;
  provider_llm := fun _ => Val 3%nat;
  chain_invoke := fun _ _ _ _ h =>
    (Val [ {| subtopic_task := "a" |}; {| subtopic_task := "b" |};
           {| subtopic_task := "c" |} ], <[2%positive := []]> h);
  print_outcome := fun _ => None
|}.

Definition connection_error : exn :=
  mk_exn (OtherException "APIConnectionError") "Connection error.".

Definition parse_error : exn :=
  mk_exn (OtherException "OutputParserException") "Invalid json output".

(** A provider whose chat call fails on every attempt, and a chain whose
    parser rejects the model's text. *)
Definition env_failing : Env := {|
  from_provider := fun _ _ => Val 7%nat;
  get_chat_response := fun _ _ _ _ _ => Exc connection_error;
  estimate_llm_cost := fun _ _ => (1 # 100)%Q;
  py_str := fun _ => "[]";
  PydanticOutputParser := Val 1%nat;
  get_format_instructions := fun _ => Val "Return a JSON object.";
  generate_subtopics_prompt := Val "{task} {data} {subtopics} {max_subtopics}";
  PromptTemplate := fun _ _ _ => Val 2%nat;
  provider_llm := fun _ => Val 3%nat;
  chain_invoke := fun _ _ _ _ h => (Exc parse_error, h);
  print_outcome := fun _ => None
|}.

Definition hi : list ChatMessage := [ {| role := "user"; content := "hi" |} ].

(** A callback that accepts the cost, and one that rejects it. *)
Definition add_costs : callback :=
  {| cb_bool := Val true; cb_call := fun _ => Val tt |}.

Definition bad_cost : exn :=
  mk_exn ValueError "Cost must be an integer or float".

Definition reject_costs : callback :=
  {| cb_bool := Val true; cb_call := fun _ => Exc bad_cost |}.

Definition config_gpt : Config.t := {|
  Config.smart_llm_model := Some "gpt-4o";
  Config.smart_llm_provider := Some "openai";
  Config.smart_token_limit := Some 4000;
  Config.temperature := Some (4 # 10)%Q;
  Config.llm_kwargs := None;
  Config.max_subtopics := 2
|}.

(** ** main.research *)

(** What the endpoint asks of the researcher, in the order it happens. *)
Inductive server_event :=
| EvResearcher (query : pyval)
| EvConductResearch (researcher : nat)
| EvWriteReport (researcher : nat).

(** The collaborators of the endpoint: the [GPTResearcher] constructor and
    the two coroutines of the object it builds, a handle. *)
Record ServerEnv := {
  GPTResearcher : pyval -> res nat;
  conduct_research : nat -> res unit;
  write_report : nat -> res string
}.

(** A call that leaves the module: it is recorded, and its outcome is the
    collaborator's. *)
Definition call {Ev A} (ev : Ev) (r : res A) : M (list Ev) A :=
  fun t => (r, t ++ [ev]).

(** [request["query"]]: a missing key raises [KeyError('query')], whose
    [str] is the [repr] of the key. *)
Definition request_query {S} (request : gmap string pyval) : M S pyval :=
  match request !! "query" with
  | Some v => ret v
  | None => raise (mk_exn (OtherException "KeyError") "'query'")
  end.

(** The body of the [try] block of the endpoint. *)
Definition research_try (E : ServerEnv) (request : gmap string pyval)
  : M (list server_event) (gmap string pyval) :=
  query ← request_query request;
  researcher ← call (EvResearcher query) (GPTResearcher E query);
  call (EvConductResearch researcher) (conduct_research E researcher);;
  result ← call (EvWriteReport researcher) (write_report E researcher);
  ret {["result" := PStr result]}.

(** The handler returns at once; the statements written after its [return]
    are never run. *)
Definition research (E : ServerEnv) (request : gmap string pyval)
  : M (list server_event) (gmap string pyval) :=
  try_except
    (research_try E request)
    (fun e => ret {["error" := PStr (exn_msg e)]}).

(** ** Further observations and instances *)

Definition is_chat_response (e : event) : bool :=
  match e with EvChatResponse _ _ _ => true | _ => false end.

Definition is_get_llm (e : event) : bool :=
  match e with EvGetLLM _ _ => true | _ => false end.

Definition is_log_error (e : event) : bool :=
  match e with EvLogError _ => true | _ => false end.

Definition unknown_provider : exn :=
  mk_exn ValueError "Unsupported provider".

(** A registry that knows no provider. *)
Definition env_no_provider : Env := {|
  from_provider := fun _ _ => Exc unknown_provider;
  get_chat_response := fun _ _ _ _ _ => Val "hello";
  estimate_llm_cost := fun _ _ => (1 # 100)%Q;
  py_str := fun _ => "[]";
  PydanticOutputParser := Val 1%nat;
  get_format_instructions := fun _ => Val "Return a JSON object.";
  generate_subtopics_prompt := Val "{task} {data} {subtopics} {max_subtopics}";
  PromptTemplate := fun _ _ _ => Val 2%nat;
  provider_llm := fun _ => Val 3%nat;
  chain_invoke := fun _ _ _ _ h => (Val [], h);
  print_outcome := fun _ => None
|}.

Definition config_o1 : Config.t := {|
  Config.smart_llm_model := Some "o1-preview";
  Config.smart_llm_provider := Some "openai";
  Config.smart_token_limit := Some 50000;
  Config.temperature := Some (4 # 10)%Q;
  Config.llm_kwargs := Some {["reasoning_effort" := PStr "low"]};
  Config.max_subtopics := 3
|}.

Definition config_unset : Config.t := {|
  Config.smart_llm_model := None;
  Config.smart_llm_provider := None;
  Config.smart_token_limit := None;
  Config.temperature := None;
  Config.llm_kwargs := None;
  Config.max_subtopics := 3
|}.

(** A researcher that writes a report, and one whose research fails. *)
Definition server_ok : ServerEnv := {|
  GPTResearcher := fun _ => Val 5%nat;
  conduct_research := fun _ => Val tt;
  write_report := fun _ => Val "# Report"
|}.



(** A callable object that accepts the cost but is false as a condition
    (it defines [__len__] and is empty). *)
Definition falsy_costs : callback :=
  {| cb_bool := Val false; cb_call := fun _ => Val tt |}.

Definition closed_stdout : exn :=
  mk_exn ValueError "I/O operation on closed file.".

(** A chain whose parser rejects the model's text, with the standard
    output closed. *)
Definition env_closed_stdout : Env := {|
  from_provider := fun _ _ => Val 7%nat;
  get_chat_response := fun _ _ _ _ _ => Exc connection_error;
  estimate_llm_cost := fun _ _ => (1 # 100)%Q;
  py_str := fun _ => "[]";
  PydanticOutputParser := Val 1%nat;
  get_format_instructions := fun _ => Val "Return a JSON object.";
  generate_subtopics_prompt := Val "{task} {data} {subtopics} {max_subtopics}";
  PromptTemplate := fun _ _ _ => Val 2%nat;
  provider_llm := fun _ => Val 3%nat;
  chain_invoke := fun _ _ _ _ h => (Exc parse_error, h);
  print_outcome := fun _ => Some (closed_stdout, [])
|}.

(** ** The steps of the [try] block of construct_subtopics *)

(** [step_fails E task data config l h e h']: the steps before some step
    of the [try] block succeed and that step raises [e], the store being
    [h] at the start and [h'] when [e] is raised.  The steps are, in the
    order of the source: building the parser, fetching the template,
    formatting the instructions, building the prompt, classifying the
    model, resolving the provider, reading its model, invoking the
    chain. *)
Inductive step_fails (E : Env) (task data : string) (config : Config.t)
    (l : loc) (h : gmap loc (list Subtopic))
  : exn -> gmap loc (list Subtopic) -> Prop :=
| fail_parser e :
    PydanticOutputParser E = Exc e ->
    step_fails E task data config l h e h
| fail_template parser e :
    PydanticOutputParser E = Val parser ->
    generate_subtopics_prompt E = Exc e ->
    step_fails E task data config l h e h
| fail_instructions parser template e :
    PydanticOutputParser E = Val parser ->
    generate_subtopics_prompt E = Val template ->
    get_format_instructions E parser = Exc e ->
    step_fails E task data config l h e h
| fail_prompt parser template instructions e :
    PydanticOutputParser E = Val parser ->
    generate_subtopics_prompt E = Val template ->
    get_format_instructions E parser = Val instructions ->
    PromptTemplate E template
      ["task"; "data"; "subtopics"; "max_subtopics"] instructions = Exc e ->
    step_fails E task data config l h e h
| fail_model_none parser template instructions prompt :
    PydanticOutputParser E = Val parser ->
    generate_subtopics_prompt E = Val template ->
    get_format_instructions E parser = Val instructions ->
    PromptTemplate E template
      ["task"; "data"; "subtopics"; "max_subtopics"] instructions =
      Val prompt ->
    Config.smart_llm_model config = None ->
    step_fails E task data config l h
      (mk_exn TypeError "argument of type 'NoneType' is not iterable") h
| fail_get_llm parser template instructions prompt m e :
    PydanticOutputParser E = Val parser ->
    generate_subtopics_prompt E = Val template ->
    get_format_instructions E parser = Val instructions ->
    PromptTemplate E template
      ["task"; "data"; "subtopics"; "max_subtopics"] instructions =
      Val prompt ->
    Config.smart_llm_model config = Some m ->
    get_llm E (Config.smart_llm_provider config)
      (subtopics_kwargs config (is_reasoning_model m)) = Exc e ->
    step_fails E task data config l h e h
| fail_provider_llm parser template instructions prompt m provider e :
    PydanticOutputParser E = Val parser ->
    generate_subtopics_prompt E = Val template ->
    get_format_instructions E parser = Val instructions ->
    PromptTemplate E template
      ["task"; "data"; "subtopics"; "max_subtopics"] instructions =
      Val prompt ->
    Config.smart_llm_model config = Some m ->
    get_llm E (Config.smart_llm_provider config)
      (subtopics_kwargs config (is_reasoning_model m)) = Val provider ->
    provider_llm E provider = Exc e ->
    step_fails E task data config l h e h
| fail_chain parser template instructions prompt m provider model e h' :
    PydanticOutputParser E = Val parser ->
    generate_subtopics_prompt E = Val template ->
    get_format_instructions E parser = Val instructions ->
    PromptTemplate E template
      ["task"; "data"; "subtopics"; "max_subtopics"] instructions =
      Val prompt ->
    Config.smart_llm_model config = Some m ->
    get_llm E (Config.smart_llm_provider config)
      (subtopics_kwargs config (is_reasoning_model m)) = Val provider ->
    provider_llm E provider = Val model ->
    chain_invoke E prompt model parser
      {| in_task := task; in_data := data; in_subtopics := l;
         in_max_subtopics := Config.max_subtopics config |} h =
      (Exc e, h') ->
    step_fails E task data config l h e h'.

(** * Properties *)

(** Splits on the callback: absent, truth test raising, false, true and
    returning, true and raising. *)
Ltac callback_cases cb :=
  destruct cb as [cb|];
  [ destruct (cb_bool cb) as [[|]|?];
    [ destruct (cb_call cb _) as [[]|?] | | ] | ].

(** Closes a goal saying that a log event is in none of the pieces of a
    trace. *)
Ltac not_logged :=
  repeat first
    [ assumption
    | apply not_elem_of_nil
    | apply not_elem_of_app; split
    | apply not_elem_of_cons; split; [discriminate |] ].

(** ** Substring test *)

Lemma prefix_app (n post : string) : String.prefix n (n +:+ post) = true.
Proof.
  induction n as [|c n IH]; simpl.
  - by destruct post.
  - destruct (Ascii.ascii_dec c c); [exact IH | done].
Qed.

Lemma prefix_inv (n h : string) :
  String.prefix n h = true -> exists post, h = n +:+ post.
Proof.
  revert h; induction n as [|c n IH]; intros h Hp.
  - by exists h.
  - destruct h as [|d h]; simpl in Hp; [done |].
    destruct (Ascii.ascii_dec c d) as [->|]; [| done].
    destruct (IH h Hp) as [post ->]. by exists post.
Qed.

Lemma str_contains_prefix (n h : string) :
  String.prefix n h = true -> str_contains n h = true.
Proof. intros Hp. destruct h; cbn [str_contains]; by rewrite Hp. Qed.

(** [str_contains n h] holds exactly when [n] occurs in [h]. *)
Lemma str_contains_spec (n h : string) :
  str_contains n h = true <-> exists pre post, h = pre +:+ n +:+ post.
Proof.
  split.
  - induction h as [|c h IH]; intros Hc.
    + destruct n; [| done]. by exists EmptyString, EmptyString.
    + cbn [str_contains] in Hc. apply orb_true_iff in Hc as [Hp | Hc].
      * apply prefix_inv in Hp as [post ->]. by exists EmptyString, post.
      * destruct (IH Hc) as (pre & post & ->).
        by exists (String c pre), post.
  - intros (pre & post & ->).
    induction pre as [|c pre IH].
    + change ("" +:+ n +:+ post) with (n +:+ post).
      apply str_contains_prefix, prefix_app.
    + change (String c pre +:+ n +:+ post)
        with (String c (pre +:+ n +:+ post)).
      cbn [str_contains]. apply orb_true_iff. right. exact IH.
Qed.

(** X7: a model is classified as reasoning-family exactly when ["o3"] or
    ["o1"] occurs somewhere in its identifier. *)
Lemma is_reasoning_model_spec (model : string) :
  is_reasoning_model model = true <->
  (exists pre post, model = pre +:+ "o3" +:+ post) \/
  (exists pre post, model = pre +:+ "o1" +:+ post).
Proof.
  unfold is_reasoning_model.
  rewrite orb_true_iff, !str_contains_spec. done.
Qed.

(** ** The keyword dictionary *)

Lemma spread_lookup (base extra : gmap string pyval) (k : string) :
  dict_spread base extra !! k =
  match extra !! k with Some v => Some v | None => base !! k end.
Proof.
  unfold dict_spread. rewrite lookup_union.
  destruct (extra !! k), (base !! k); done.
Qed.

Lemma kwargs_reasoning_lookup model kw temperature max_tokens effort k :
  is_reasoning_model model = true ->
  completion_kwargs model kw temperature max_tokens effort !! k =
  if decide (k = "reasoning_effort") then Some (of_opt_str effort)
  else dict_spread {["model" := PStr model]} (or_empty kw) !! k.
Proof.
  intros Hr. unfold completion_kwargs. rewrite Hr.
  case_decide as Hk.
  - subst k. by rewrite lookup_insert_eq.
  - by rewrite lookup_insert_ne.
Qed.

Lemma kwargs_plain_lookup model kw temperature max_tokens effort k :
  is_reasoning_model model = false ->
  completion_kwargs model kw temperature max_tokens effort !! k =
  if decide (k = "max_tokens") then Some (of_opt_int max_tokens)
  else if decide (k = "temperature") then Some (of_opt_float temperature)
  else dict_spread {["model" := PStr model]} (or_empty kw) !! k.
Proof.
  intros Hr. unfold completion_kwargs. rewrite Hr.
  case_decide as Hk.
  - subst k. by rewrite lookup_insert_eq.
  - rewrite lookup_insert_ne by done.
    case_decide as Hk'.
    + subst k. by rewrite lookup_insert_eq.
    + by rewrite lookup_insert_ne.
Qed.

Lemma spread_model_other model (extra : gmap string pyval) k :
  k <> "model" ->
  dict_spread {["model" := PStr model]} extra !! k = extra !! k.
Proof.
  intros Hk. rewrite spread_lookup.
  destruct (extra !! k); [done |].
  by rewrite lookup_singleton_ne.
Qed.

(** ** The attempt loop *)

(** What one pass does, by cases on the provider's answer and the
    callback. *)
Lemma attempt_run E provider messages stream websocket cost_callback t :
  attempt E provider messages stream websocket cost_callback t =
  let t1 := t ++ [EvChatResponse messages stream websocket] in
  match get_chat_response E provider t messages stream websocket with
  | Exc e => (Exc e, t1)
  | Val response =>
      match cost_callback with
      | None => (Val (Return response), t1)
      | Some cb =>
          match cb_bool cb with
          | Exc e => (Exc e, t1)
          | Val false => (Val (Return response), t1)
          | Val true =>
              let c := estimate_llm_cost E (py_str E messages) response in
              let t2 := t1 ++ [EvEstimateCost (py_str E messages) response;
                               EvCostCallback c] in
              match cb_call cb c with
              | Val _ => (Val (Return response), t2)
              | Exc e => (Exc e, t2)
              end
          end
      end
  end.
Proof.
  unfold attempt, chat_response, mbind, M_bind, bind, emit, lift, ret; simpl.
  destruct (get_chat_response E provider t messages stream websocket)
    as [response|e]; [| done].
  destruct cost_callback as [cb|]; [| done].
  destruct (cb_bool cb) as [[|]|e]; try done.
  rewrite <- !app_assoc; simpl.
  destruct (cb_call cb _); done.
Qed.

(** No pass ever asks for another one. *)
Lemma attempt_never_continues E provider messages stream websocket cb t t' :
  attempt E provider messages stream websocket cb t <> (Val Continue, t').
Proof.
  rewrite attempt_run; simpl.
  destruct (get_chat_response _ _ _ _ _ _); [| done].
  callback_cases cb; done.
Qed.

(** The whole call once validation has passed: one resolution, one chat
    call, and the callback if there is one and it is true. *)
Lemma create_chat_completion_run E messages model temperature max_tokens
    llm_provider stream websocket kw cost_callback effort t :
  max_tokens_over_limit max_tokens = false ->
  create_chat_completion E messages (Some model) temperature max_tokens
    llm_provider stream websocket kw cost_callback effort t =
  let kwargs := completion_kwargs model kw temperature max_tokens effort in
  let t0 := t ++ [EvGetLLM llm_provider kwargs] in
  let t1 := t0 ++ [EvChatResponse messages stream websocket] in
  match get_llm E llm_provider kwargs with
  | Exc e => (Exc e, t0)
  | Val provider =>
      match get_chat_response E provider t0 messages stream websocket with
      | Exc e => (Exc e, t1)
      | Val response =>
          match cost_callback with
          | None => (Val response, t1)
          | Some cb =>
              match cb_bool cb with
              | Exc e => (Exc e, t1)
              | Val false => (Val response, t1)
              | Val true =>
                  let c :=
                    estimate_llm_cost E (py_str E messages) response in
                  let t2 :=
                    t1 ++ [EvEstimateCost (py_str E messages) response;
                           EvCostCallback c] in
                  match cb_call cb c with
                  | Val _ => (Val response, t2)
                  | Exc e => (Exc e, t2)
                  end
              end
          end
      end
  end.
Proof.
  intros Hv. unfold create_chat_completion. rewrite Hv.
  unfold resolve_provider, emit, lift; cbn [range seq for_in].
  unfold mbind, M_bind, bind; simpl.
  destruct (get_llm E llm_provider _) as [provider|e]; [| done].
  rewrite attempt_run; simpl.
  destruct (get_chat_response E provider _ messages stream websocket)
    as [response|e]; [| done].
  callback_cases cost_callback; done.
Qed.

(** ** Validation *)

(** A count above the tested bound stops the call before anything else
    happens. *)
Lemma over_limit_rejected E messages model temperature max_tokens
    llm_provider stream websocket kw cb effort t :
  max_tokens_over_limit max_tokens = true ->
  create_chat_completion E messages (Some model) temperature max_tokens
    llm_provider stream websocket kw cb effort t =
  (Exc (mk_exn ValueError (max_tokens_message max_tokens)), t).
Proof. intros Hv. unfold create_chat_completion. by rewrite Hv. Qed.

(** An absent count, or one of at most 16000, passes the test. *)
Lemma within_16000_passes (max_tokens : option Z) :
  match max_tokens with Some n => n <= 16000 | None => True end ->
  max_tokens_over_limit max_tokens = false.
Proof.
  destruct max_tokens as [n|]; simpl; [| done].
  intros Hn. apply Z.ltb_ge. lia.
Qed.

(** C1: a requested count of 16001 is more than 16,000, yet the test
    [max_tokens > 16001] lets it through: the provider is resolved with it
    and, with a provider that answers, the call returns the answer. *)
Theorem max_tokens_16001_not_rejected :
  create_chat_completion env_hello hi (Some "gpt-4") default_temperature
    (Some 16001) (Some "openai") false None None None
    default_reasoning_effort [] =
  (Val "hello",
   [EvGetLLM (Some "openai")
      (completion_kwargs "gpt-4" None default_temperature (Some 16001)
         default_reasoning_effort);
    EvChatResponse hi false None]) /\
  completion_kwargs "gpt-4" None default_temperature (Some 16001)
    default_reasoning_effort !! "max_tokens" = Some (PInt 16001) /\
  forall E messages model temperature llm_provider stream websocket kw cb
         effort t,
    exists r new,
      create_chat_completion E messages (Some model) temperature
        (Some 16001) llm_provider stream websocket kw cb effort t =
      (r, t ++ EvGetLLM llm_provider
                 (completion_kwargs model kw temperature (Some 16001) effort)
               :: new).
Proof.
  split; [reflexivity |]. split; [reflexivity |].
  intros. rewrite create_chat_completion_run by reflexivity. simpl.
  destruct (get_llm _ _ _) as [provider|e].
  - destruct (get_chat_response _ _ _ _ _ _) as [response|e].
    + callback_cases cb;
        eexists _, _; rewrite <- !app_assoc; reflexivity.
    + eexists _, _; rewrite <- !app_assoc; reflexivity.
  - eexists _, []. reflexivity.
Qed.

(** C8: the call raises [ValueError("Model cannot be None")], before any
    collaborator is reached, exactly when the model is [None]; whatever the
    other arguments, a present identifier is never refused for being
    missing. *)
Theorem model_none_rejected E messages model temperature max_tokens
    llm_provider stream websocket kw cb effort t :
  create_chat_completion E messages model temperature max_tokens llm_provider
    stream websocket kw cb effort t =
  (Exc (mk_exn ValueError "Model cannot be None"), t) <->
  model = None.
Proof.
  split; [| by intros ->].
  destruct model as [model|]; [| done]. intros Hrun. exfalso.
  destruct (max_tokens_over_limit max_tokens) eqn:Hv.
  - rewrite over_limit_rejected in Hrun by done.
    injection Hrun as Hmsg. unfold max_tokens_message in Hmsg.
    discriminate Hmsg.
  - rewrite create_chat_completion_run in Hrun by done. simpl in Hrun.
    assert (Hlen : forall (r r' : res string) (new : list event),
               (r, t ++ new) = (r', t) -> new = []).
    { intros r r' new [= _ Ht].
      apply (f_equal length) in Ht. rewrite length_app in Ht.
      destruct new; [done | simpl in Ht; lia]. }
    destruct (get_llm _ _ _) as [provider|e].
    + destruct (get_chat_response _ _ _ _ _ _) as [response|e].
      * callback_cases cb;
          rewrite <- ?app_assoc in Hrun; by apply Hlen in Hrun.
      * rewrite <- ?app_assoc in Hrun; by apply Hlen in Hrun.
    + by apply Hlen in Hrun.
Qed.

(** C8, as stated, fails for the empty identifier: [""] is not [None], it
    passes validation and the provider is called. *)
Lemma empty_model_counterexample :
  ~ exists msg t',
      create_chat_completion env_hello hi (Some "") default_temperature
        default_max_tokens (Some "openai") false None None None
        default_reasoning_effort [] =
      (Exc (mk_exn ValueError msg), t').
Proof. intros (msg & t' & H). vm_compute in H. discriminate H. Qed.

(** C9: the test on [max_tokens] comes before the model is classified.  A
    reasoning-family model with a count the test rejects is refused with
    the [ValueError], nothing else having happened, although for that model
    the [max_tokens] argument is never written into [kwargs]. *)
Theorem validation_precedes_classification E messages model temperature
    max_tokens llm_provider stream websocket kw cb effort t :
  is_reasoning_model model = true ->
  max_tokens_over_limit max_tokens = true ->
  create_chat_completion E messages (Some model) temperature max_tokens
    llm_provider stream websocket kw cb effort t =
  (Exc (mk_exn ValueError (max_tokens_message max_tokens)), t) /\
  completion_kwargs model kw temperature max_tokens effort !! "max_tokens" =
  or_empty kw !! "max_tokens".
Proof.
  intros Hr Hv. split; [by apply over_limit_rejected |].
  rewrite kwargs_reasoning_lookup by done.
  rewrite decide_False by done. by apply spread_model_other.
Qed.

Lemma validation_precedes_classification_witness :
  create_chat_completion env_hello hi (Some "o1-mini") default_temperature
    (Some 20000) (Some "openai") false None None (Some add_costs)
    default_reasoning_effort [] =
  (Exc (mk_exn ValueError
          "Max tokens cannot be more than 16,000, but got 20000"), []) /\
  completion_kwargs "o1-mini" None default_temperature (Some 20000)
    default_reasoning_effort !! "max_tokens" = None.
Proof.
  apply (validation_precedes_classification env_hello hi "o1-mini"
           default_temperature (Some 20000) (Some "openai") false None None
           (Some add_costs) default_reasoning_effort []);
    reflexivity.
Defined.

(** ** The attempt loop never retries *)

(** C2: when the provider's chat call fails, the call makes that single
    attempt and lets the provider's own exception out; the [RuntimeError]
    written after the loop is not what the caller sees. *)
Theorem failing_provider_error_is_raw E messages model temperature
    max_tokens llm_provider stream websocket kw cb effort t provider e :
  max_tokens_over_limit max_tokens = false ->
  get_llm E llm_provider
    (completion_kwargs model kw temperature max_tokens effort) =
  Val provider ->
  get_chat_response E provider
    (t ++ [EvGetLLM llm_provider
             (completion_kwargs model kw temperature max_tokens effort)])
    messages stream websocket = Exc e ->
  create_chat_completion E messages (Some model) temperature max_tokens
    llm_provider stream websocket kw cb effort t =
  (Exc e,
   t ++ [EvGetLLM llm_provider
           (completion_kwargs model kw temperature max_tokens effort);
         EvChatResponse messages stream websocket]).
Proof.
  intros Hv Hp Hc. rewrite create_chat_completion_run by done. simpl.
  rewrite Hp, Hc, <- app_assoc. reflexivity.
Qed.

Lemma failing_provider_error_is_raw_witness :
  create_chat_completion env_failing hi (Some "gpt-4") default_temperature
    default_max_tokens (Some "openai") false None None None
    default_reasoning_effort [] =
  (Exc connection_error,
   [EvGetLLM (Some "openai")
      (completion_kwargs "gpt-4" None default_temperature default_max_tokens
         default_reasoning_effort);
    EvChatResponse hi false None]).
Proof.
  apply (failing_provider_error_is_raw env_failing hi "gpt-4"
           default_temperature default_max_tokens (Some "openai") false None
           None None default_reasoning_effort [] 7%nat connection_error);
    reflexivity.
Defined.

(** The statements after the loop are never reached: no run logs the
    failure message. *)
Lemma fall_through_unreachable E messages model temperature max_tokens
    llm_provider stream websocket kw cb effort t :
  EvLogError (failed_message llm_provider) ∉ t ->
  EvLogError (failed_message llm_provider) ∉
    snd (create_chat_completion E messages model temperature max_tokens
           llm_provider stream websocket kw cb effort t).
Proof.
  intros Ht. destruct model as [model|]; [| done].
  destruct (max_tokens_over_limit max_tokens) eqn:Hv.
  - by rewrite over_limit_rejected.
  - rewrite create_chat_completion_run by done. simpl.
    destruct (get_llm _ _ _) as [provider|e]; simpl.
    + destruct (get_chat_response _ _ _ _ _ _) as [response|e]; simpl.
      * callback_cases cb; simpl; not_logged.
      * not_logged.
    + not_logged.
Qed.

(** ** Shaping of the keyword dictionary *)

(** C6, as stated, fails when the caller's [llm_kwargs] carries one of the
    keys: for a reasoning-family model the dictionary then does contain
    [temperature]. *)
Lemma reasoning_kwargs_counterexample :
  let kwargs :=
    completion_kwargs "o1-mini"
      (Some {["temperature" := PFloat (9 # 10)%Q]})
      default_temperature default_max_tokens default_reasoning_effort in
  is_reasoning_model "o1-mini" = true /\
  ~ (is_Some (kwargs !! "reasoning_effort") /\
     kwargs !! "temperature" = None /\
     kwargs !! "max_tokens" = None).
Proof.
  split; [reflexivity |].
  intros (_ & Ht & _). vm_compute in Ht. discriminate Ht.
Qed.

(** C6: for a reasoning-family model the call writes [reasoning_effort]
    from its argument and writes neither [temperature] nor [max_tokens];
    for any other model it writes [temperature] and [max_tokens] from its
    arguments and does not write [reasoning_effort].  A key that is not
    written is in the dictionary exactly when the caller's [llm_kwargs]
    carries it.  The signature's defaults are "low", 0.4 and 4000. *)
Theorem kwargs_by_model_family model kw temperature max_tokens effort :
  let kwargs := completion_kwargs model kw temperature max_tokens effort in
  (if is_reasoning_model model then
     kwargs !! "reasoning_effort" = Some (of_opt_str effort) /\
     kwargs !! "temperature" = or_empty kw !! "temperature" /\
     kwargs !! "max_tokens" = or_empty kw !! "max_tokens"
   else
     kwargs !! "temperature" = Some (of_opt_float temperature) /\
     kwargs !! "max_tokens" = Some (of_opt_int max_tokens) /\
     kwargs !! "reasoning_effort" = or_empty kw !! "reasoning_effort") /\
  or_empty None !! "temperature" = None /\
  or_empty None !! "max_tokens" = None /\
  or_empty None !! "reasoning_effort" = None /\
  of_opt_str default_reasoning_effort = PStr "low" /\
  of_opt_float default_temperature = PFloat (4 # 10)%Q /\
  of_opt_int default_max_tokens = PInt 4000.
Proof.
  simpl. split; [| done].
  destruct (is_reasoning_model model) eqn:Hr.
  - rewrite !kwargs_reasoning_lookup by done.
    rewrite decide_True, !decide_False by done.
    by rewrite !spread_model_other.
  - rewrite !kwargs_plain_lookup by done.
    rewrite ?decide_True, ?decide_False by done.
    rewrite decide_True by done.
    by rewrite !spread_model_other.
Qed.

(** C3, as stated, fails on both counts: the caller's [temperature] loses
    to the value written by the call, and the caller's [model] entry
    replaces the model identifier. *)
Lemma caller_kwargs_counterexample :
  let kw : gmap string pyval :=
    {["model" := PStr "other"; "temperature" := PFloat (9 # 10)%Q]} in
  let kwargs :=
    completion_kwargs "gpt-4" (Some kw) default_temperature
      default_max_tokens default_reasoning_effort in
  ~ (forall k v, k <> "model" -> kw !! k = Some v -> kwargs !! k = Some v) /\
  kwargs !! "model" <> Some (PStr "gpt-4").
Proof.
  split.
  - intros H. specialize (H "temperature" (PFloat (9 # 10)%Q)).
    vm_compute in H. specialize (H ltac:(discriminate) eq_refl).
    discriminate H.
  - vm_compute. discriminate.
Qed.

(** C3: the caller's [llm_kwargs] are written over the [model] entry, so
    a [model] key among them replaces the identifier; the entries the call
    writes afterwards ([reasoning_effort], or [temperature] and
    [max_tokens]) take precedence over the caller's; every other key of
    the caller arrives unchanged. *)
Theorem kwargs_precedence model kw temperature max_tokens effort :
  let kwargs := completion_kwargs model kw temperature max_tokens effort in
  kwargs !! "model" = Some (default (PStr model) (or_empty kw !! "model")) /\
  (if is_reasoning_model model then
     kwargs !! "reasoning_effort" = Some (of_opt_str effort)
   else
     kwargs !! "temperature" = Some (of_opt_float temperature) /\
     kwargs !! "max_tokens" = Some (of_opt_int max_tokens)) /\
  forall k,
    k <> "model" ->
    (if is_reasoning_model model then k <> "reasoning_effort"
     else k <> "temperature" /\ k <> "max_tokens") ->
    kwargs !! k = or_empty kw !! k.
Proof.
  simpl. destruct (is_reasoning_model model) eqn:Hr.
  - repeat split.
    + rewrite kwargs_reasoning_lookup, decide_False, spread_lookup by done.
      destruct (or_empty kw !! "model"); [done |].
      by rewrite lookup_singleton_eq.
    + by rewrite kwargs_reasoning_lookup, decide_True.
    + intros k Hm Hk.
      rewrite kwargs_reasoning_lookup, decide_False by done.
      by apply spread_model_other.
  - repeat split.
    + rewrite kwargs_plain_lookup, !decide_False, spread_lookup by done.
      destruct (or_empty kw !! "model"); [done |].
      by rewrite lookup_singleton_eq.
    + rewrite kwargs_plain_lookup by done.
      by rewrite decide_False, decide_True.
    + by rewrite kwargs_plain_lookup, decide_True.
    + intros k Hm [Ht Hx].
      rewrite kwargs_plain_lookup, !decide_False by done.
      by apply spread_model_other.
Qed.

Lemma kwargs_precedence_witness :
  completion_kwargs "gpt-4"
    (Some {["model" := PStr "other"; "top_p" := PFloat (1 # 2)%Q]})
    default_temperature default_max_tokens default_reasoning_effort
    !! "top_p" = Some (PFloat (1 # 2)%Q).
Proof.
  rewrite (proj2 (proj2 (kwargs_precedence "gpt-4"
    (Some {["model" := PStr "other"; "top_p" := PFloat (1 # 2)%Q]})
    default_temperature default_max_tokens default_reasoning_effort))
    "top_p").
  - reflexivity.
  - discriminate.
  - vm_compute. split; discriminate.
Defined.

(** ** The cost callback *)

(** C7, as stated, fails in two ways.  When the callback itself raises,
    the call fails and the callback has been invoked.  When the callback
    supplied is false as a condition, the call returns the response and the
    callback has not been invoked. *)
Lemma raising_callback_counterexample :
  ~ (let '(r, t') :=
       create_chat_completion env_hello hi (Some "gpt-4")
         default_temperature default_max_tokens (Some "openai") false None
         None (Some reject_costs) default_reasoning_effort [] in
     match r with
     | Exc _ => count_events is_cost_callback t' = 0%nat
     | Val _ => True
     end) /\
  ~ (let '(r, t') :=
       create_chat_completion env_hello hi (Some "gpt-4")
         default_temperature default_max_tokens (Some "openai") false None
         None (Some falsy_costs) default_reasoning_effort [] in
     match r with
     | Val _ => count_events is_cost_callback t' = 1%nat
     | Exc _ => True
     end).
Proof. split; vm_compute; discriminate. Qed.

(** C7: with a callback that is true as a condition, a call that returns
    a response has invoked the callback exactly once, as its last act
    before returning, with the cost estimated from [str(messages)] and the
    response; a call that fails has not invoked the callback, unless the
    failure is the exception raised by the callback itself in its single
    invocation.  With a callback that is false as a condition or whose
    truth test raises, and without a callback, neither the estimator nor a
    callback is invoked. *)
Theorem cost_callback_once E messages model temperature max_tokens
    llm_provider stream websocket kw cb effort t :
  (cb_bool cb = Val true ->
   let '(r, t') :=
     create_chat_completion E messages model temperature max_tokens
       llm_provider stream websocket kw (Some cb) effort t in
   match r with
   | Val response =>
       exists kwargs,
         t' = t ++ [EvGetLLM llm_provider kwargs;
                    EvChatResponse messages stream websocket;
                    EvEstimateCost (py_str E messages) response;
                    EvCostCallback
                      (estimate_llm_cost E (py_str E messages) response)]
   | Exc e =>
       exists new,
         t' = t ++ new /\
         (count_events is_cost_callback new = 0%nat \/
          exists c,
            cb_call cb c = Exc e /\
            count_events is_cost_callback new = 1%nat /\
            last new = Some (EvCostCallback c))
   end) /\
  (cb_bool cb <> Val true ->
   let '(_, t') :=
     create_chat_completion E messages model temperature max_tokens
       llm_provider stream websocket kw (Some cb) effort t in
   exists new,
     t' = t ++ new /\
     count_events is_cost_callback new = 0%nat /\
     count_events is_estimate new = 0%nat) /\
  (let '(_, t') :=
     create_chat_completion E messages model temperature max_tokens
       llm_provider stream websocket kw None effort t in
   exists new,
     t' = t ++ new /\
     count_events is_cost_callback new = 0%nat /\
     count_events is_estimate new = 0%nat).
Proof.
  destruct model as [model|].
  2: { repeat split; intros; simpl; exists []; by rewrite app_nil_r; auto. }
  destruct (max_tokens_over_limit max_tokens) eqn:Hv.
  { rewrite !over_limit_rejected by done.
    repeat split; intros; exists []; by rewrite app_nil_r; auto. }
  rewrite !create_chat_completion_run by done. simpl.
  destruct (get_llm _ _ _) as [provider|e].
  2: { repeat split; intros; eexists [_]; eauto. }
  destruct (get_chat_response _ _ _ _ _ _) as [response|e].
  2: { repeat split; intros; rewrite <- app_assoc; eexists [_; _]; eauto. }
  split; [| split].
  - intros ->.
    destruct (cb_call cb _) as [[]|e] eqn:Hcb; rewrite <- !app_assoc; simpl.
    + by eexists.
    + eexists [_; _; _; _]. split; [done |]. right. by eexists.
  - intros Hb. destruct (cb_bool cb) as [[|]|e]; [done | |];
      rewrite <- app_assoc; eexists [_; _]; eauto.
  - rewrite <- app_assoc. eexists [_; _]. eauto.
Qed.

Lemma cost_callback_once_witness :
  let '(r, t') :=
    create_chat_completion env_hello hi (Some "gpt-4") default_temperature
      default_max_tokens (Some "openai") false None None (Some add_costs)
      default_reasoning_effort [] in
  match r with
  | Val response =>
      exists kwargs,
        t' = [] ++ [EvGetLLM (Some "openai") kwargs;
                    EvChatResponse hi false None;
                    EvEstimateCost (py_str env_hello hi) response;
                    EvCostCallback
                      (estimate_llm_cost env_hello (py_str env_hello hi)
                         response)]
  | Exc e =>
      exists new,
        t' = [] ++ new /\
        (count_events is_cost_callback new = 0%nat \/
         exists c,
           cb_call add_costs c = Exc e /\
           count_events is_cost_callback new = 1%nat /\
           last new = Some (EvCostCallback c))
  end.
Proof.
  exact (proj1 (cost_callback_once env_hello hi (Some "gpt-4")
                  default_temperature default_max_tokens (Some "openai")
                  false None None add_costs default_reasoning_effort [])
           eq_refl).
Defined.

(** ** construct_subtopics *)

(** The [try] block either fails before the chain is invoked, leaving the
    state as it was, or ends with the chain's outcome and the store the
    chain left. *)
Lemma construct_subtopics_try_outcome E task data config l st :
  let input :=
    {| in_task := task; in_data := data; in_subtopics := l;
       in_max_subtopics := Config.max_subtopics config |} in
  (exists e, construct_subtopics_try E task data config l st = (Exc e, st)) \/
  (exists prompt model parser,
     construct_subtopics_try E task data config l st =
     (match fst (chain_invoke E prompt model parser input (heap st)) with
      | Val output => Val (ObjSubtopics output)
      | Exc e => Exc e
      end,
      {| heap := snd (chain_invoke E prompt model parser input (heap st));
         stdout := stdout st |})).
Proof.
  unfold construct_subtopics_try, invoke_chain, is_reasoning_opt, lift.
  unfold mbind, M_bind, bind, mret, M_ret, ret, raise; simpl.
  destruct (PydanticOutputParser E) as [parser|e]; [| by left; eexists].
  destruct (generate_subtopics_prompt E) as [template|e];
    [| by left; eexists].
  destruct (get_format_instructions E parser) as [instructions|e];
    [| by left; eexists].
  destruct (PromptTemplate E template _ instructions) as [prompt|e];
    [| by left; eexists].
  destruct (Config.smart_llm_model config) as [m|]; [| by left; eexists].
  destruct (get_llm E _ _) as [provider|e]; [| by left; eexists].
  destruct (provider_llm E provider) as [model|e]; [| by left; eexists].
  right. exists prompt, model, parser.
  destruct (chain_invoke E prompt model parser _ (heap st)) as [[output|e] h];
    done.
Qed.

(** The call by cases on its [try] block and on the handler's print. *)
Lemma construct_subtopics_run E task data config l st :
  construct_subtopics E task data config l st =
  match construct_subtopics_try E task data config l st with
  | (Val o, st') => (Val o, st')
  | (Exc e, st') =>
      if is_Exception (exn_cls e) then
        match print_outcome E e with
        | None =>
            (Val (ObjList l),
             {| heap := heap st';
                stdout := stdout st' ++
                  ["Exception in parsing subtopics : " +:+ " " +:+
                   exn_msg e] |})
        | Some (e', written) =>
            (Exc e', {| heap := heap st'; stdout := stdout st' ++ written |})
        end
      else (Exc e, st')
  end.
Proof.
  unfold construct_subtopics, try_except.
  destruct (construct_subtopics_try E task data config l st) as [[o|e] st'];
    [done |].
  destruct (is_Exception (exn_cls e)); [| done].
  unfold mbind, M_bind, bind, print.
  destruct (print_outcome E e) as [[e' written]|]; done.
Qed.

(** Closes a case in which the handler has run although a value of
    another shape is assumed to have been returned. *)
Ltac handler_done :=
  destruct (is_Exception _);
  [ destruct (print_outcome _ _) as [[? ?]|] | ]; done.

(** The [try] block fails exactly when one of its steps does; nothing is
    printed meanwhile. *)
Lemma try_fails_iff E task data config l st e st' :
  construct_subtopics_try E task data config l st = (Exc e, st') <->
  step_fails E task data config l (heap st) e (heap st') /\
  stdout st' = stdout st.
Proof.
  split.
  - unfold construct_subtopics_try, invoke_chain, is_reasoning_opt, lift.
    unfold mbind, M_bind, bind, mret, M_ret, ret, raise; simpl.
    destruct (PydanticOutputParser E) as [parser|e0] eqn:H1.
    2: { intros [= <- <-]. split; [by eapply fail_parser | done]. }
    destruct (generate_subtopics_prompt E) as [template|e0] eqn:H2.
    2: { intros [= <- <-]. split; [by eapply fail_template | done]. }
    destruct (get_format_instructions E parser) as [instructions|e0] eqn:H3.
    2: { intros [= <- <-]. split; [by eapply fail_instructions | done]. }
    destruct (PromptTemplate E template _ instructions) as [prompt|e0]
      eqn:H4.
    2: { intros [= <- <-]. split; [by eapply fail_prompt | done]. }
    destruct (Config.smart_llm_model config) as [m|] eqn:H5.
    2: { intros [= <- <-]. split; [by eapply fail_model_none | done]. }
    destruct (get_llm E _ _) as [provider|e0] eqn:H6.
    2: { intros [= <- <-]. split; [by eapply fail_get_llm | done]. }
    destruct (provider_llm E provider) as [model|e0] eqn:H7.
    2: { intros [= <- <-]. split; [by eapply fail_provider_llm | done]. }
    destruct (chain_invoke E prompt model parser _ (heap st))
      as [[output|e0] h] eqn:H8; [done |].
    intros [= <- <-]. split; [by eapply fail_chain | done].
  - intros [Hstep Hout].
    assert (Hst : forall h, heap st' = h ->
              st' = {| heap := h; stdout := stdout st |}).
    { intros h <-. destruct st'; simpl in *. by subst. }
    assert (Hst0 : st = {| heap := heap st; stdout := stdout st |})
      by by destruct st.
    unfold construct_subtopics_try, invoke_chain, is_reasoning_opt, lift.
    unfold mbind, M_bind, bind, mret, M_ret, ret, raise; simpl.
    inversion Hstep as
      [ e0 H1 | parser e0 H1 H2 | parser template e0 H1 H2 H3
      | parser template instructions e0 H1 H2 H3 H4
      | parser template instructions prompt H1 H2 H3 H4 H5
      | parser template instructions prompt m e0 H1 H2 H3 H4 H5 H6
      | parser template instructions prompt m provider e0
          H1 H2 H3 H4 H5 H6 H7
      | parser template instructions prompt m provider model e0 h
          H1 H2 H3 H4 H5 H6 H7 H8 ]; subst;
      rewrite ?H1, ?H2, ?H3, ?H4, ?H5, ?H6, ?H7, ?H8;
      try (rewrite (Hst (heap st)) by done; by rewrite <- Hst0).
    by rewrite (Hst (heap st')).
Qed.

(** C4, as stated, fails: with [max_subtopics = 2] and a chain whose parsed
    output has three entries, all three are returned. *)
Lemma more_than_max_counterexample :
  ~ (let '(r, st') :=
       construct_subtopics env_hello "topic A" "ctx" config_gpt
         default_subtopics initial_state in
     match r with
     | Val o =>
         match result_length st' o with
         | Some n => Z.of_nat n <= Config.max_subtopics config_gpt
         | None => True
         end
     | Exc _ => True
     end).
Proof. intros H. vm_compute in H. by apply H. Qed.

(** C4: a successful run returns the chain's parsed output as it is, with
    no truncation; [config.max_subtopics] only travels to the chain as the
    input variable [max_subtopics]. *)
Theorem successful_run_returns_chain_output E task data config l st out st' :
  construct_subtopics E task data config l st =
    (Val (ObjSubtopics out), st') ->
  (exists prompt model parser,
     chain_invoke E prompt model parser
       {| in_task := task; in_data := data; in_subtopics := l;
          in_max_subtopics := Config.max_subtopics config |} (heap st) =
     (Val out, heap st')) /\
  result_length st' (ObjSubtopics out) = Some (length out).
Proof.
  rewrite construct_subtopics_run. intros Hrun. split; [| done].
  destruct (construct_subtopics_try_outcome E task data config l st)
    as [[e He] | (prompt & model & parser & Ht)]; simpl in *.
  - rewrite He in Hrun. revert Hrun. handler_done.
  - rewrite Ht in Hrun. exists prompt, model, parser.
    destruct (chain_invoke E prompt model parser _ (heap st))
      as [[output|e] h]; simpl in *.
    + by injection Hrun as -> <-.
    + revert Hrun. handler_done.
Qed.

Lemma successful_run_returns_chain_output_witness :
  (exists prompt model parser,
     chain_invoke env_hello prompt model parser
       {| in_task := "topic A"; in_data := "ctx";
          in_subtopics := default_subtopics; in_max_subtopics := 2 |}
       (heap initial_state) =
     (Val [ {| subtopic_task := "a" |}; {| subtopic_task := "b" |};
            {| subtopic_task := "c" |} ],
      <[2%positive := []]> (heap initial_state))) /\
  result_length
    {| heap := <[2%positive := []]> (heap initial_state); stdout := [] |}
    (ObjSubtopics [ {| subtopic_task := "a" |}; {| subtopic_task := "b" |};
                    {| subtopic_task := "c" |} ]) = Some 3%nat.
Proof.
  exact (successful_run_returns_chain_output env_hello "topic A" "ctx"
           config_gpt default_subtopics initial_state
           [ {| subtopic_task := "a" |}; {| subtopic_task := "b" |};
             {| subtopic_task := "c" |} ]
           {| heap := <[2%positive := []]> (heap initial_state);
              stdout := [] |}
           eq_refl).
Defined.

(** C5, as stated, fails when the handler's own print raises: with the
    parser rejecting the model's text and the standard output closed, a
    step has failed and the call raises instead of returning the list. *)
Lemma closed_stdout_counterexample :
  ~ (step_fails env_closed_stdout "topic A" "ctx" config_gpt
       default_subtopics (heap initial_state) parse_error
       (heap initial_state) ->
     exists st',
       construct_subtopics env_closed_stdout "topic A" "ctx" config_gpt
         default_subtopics initial_state =
       (Val (ObjList default_subtopics), st')).
Proof.
  intros H. destruct H as [st' H].
  - eapply fail_chain; reflexivity.
  - vm_compute in H. discriminate H.
Qed.

(** C5: whenever a step of the [try] block fails with an [Exception]
    (building the parser, fetching the template, formatting the
    instructions, building the prompt, classifying the model, resolving
    the provider, reading its model, or invoking the chain, which covers
    the provider's answer and its parsing), the handler prints the failure
    and, that print succeeding, the call returns the very list it was
    given; if the print raises, its exception is what the caller gets.  An
    [Exception] reaches the caller in no other way. *)
Theorem failure_falls_back E task data config l st :
  (forall e h',
     step_fails E task data config l (heap st) e h' ->
     is_Exception (exn_cls e) = true ->
     construct_subtopics E task data config l st =
     match print_outcome E e with
     | None =>
         (Val (ObjList l),
          {| heap := h';
             stdout := stdout st ++
               ["Exception in parsing subtopics : " +:+ " " +:+
                exn_msg e] |})
     | Some (e', written) =>
         (Exc e', {| heap := h'; stdout := stdout st ++ written |})
     end) /\
  (forall e' st',
     construct_subtopics E task data config l st = (Exc e', st') ->
     is_Exception (exn_cls e') = true ->
     exists e h' written,
       step_fails E task data config l (heap st) e h' /\
       is_Exception (exn_cls e) = true /\
       print_outcome E e = Some (e', written)).
Proof.
  rewrite construct_subtopics_run. split.
  - intros e h' Hstep He.
    assert (Htry : construct_subtopics_try E task data config l st =
                   (Exc e, {| heap := h'; stdout := stdout st |}))
      by by apply try_fails_iff.
    rewrite Htry, He. simpl. by destruct (print_outcome E e) as [[? ?]|].
  - intros e' st'.
    destruct (construct_subtopics_try E task data config l st)
      as [[o|e] st1] eqn:Htry; [done |].
    apply try_fails_iff in Htry as [Hstep _].
    destruct (is_Exception (exn_cls e)) eqn:He.
    + destruct (print_outcome E e) as [[e1 written]|] eqn:Hp; [| done].
      intros [= <- <-] _. by exists e, (heap st1), written.
    + intros [= <- <-] He'. congruence.
Qed.

Lemma failure_falls_back_witness :
  construct_subtopics env_failing "topic A" "ctx" config_gpt
    default_subtopics initial_state =
  (Val (ObjList default_subtopics),
   {| heap := heap initial_state;
      stdout := stdout initial_state ++
        ["Exception in parsing subtopics : " +:+ " " +:+
         exn_msg parse_error] |}).
Proof.
  exact (proj1 (failure_falls_back env_failing "topic A" "ctx" config_gpt
                  default_subtopics initial_state)
           parse_error (heap initial_state)
           (fail_chain env_failing "topic A" "ctx" config_gpt
              default_subtopics (heap initial_state)
              1%nat "{task} {data} {subtopics} {max_subtopics}"
              "Return a JSON object." 2%nat "gpt-4o" 7%nat 3%nat
              parse_error (heap initial_state)
              eq_refl eq_refl eq_refl eq_refl eq_refl eq_refl eq_refl
              eq_refl)
           eq_refl).
Defined.

(** C10: provided the chain does not write to the list it is handed, the
    list holds after the call what it held before it, and on the fallback
    path the value returned is the reference that was passed in (the
    handler's print raising is the one way for the fallback not to
    return). *)
Theorem subtopics_list_not_mutated E task data config l st :
  (forall prompt model parser,
     snd (chain_invoke E prompt model parser
            {| in_task := task; in_data := data; in_subtopics := l;
               in_max_subtopics := Config.max_subtopics config |}
            (heap st)) !! l = heap st !! l) ->
  heap (snd (construct_subtopics E task data config l st)) !! l =
    heap st !! l /\
  match construct_subtopics_try E task data config l st with
  | (Exc e, _) =>
      is_Exception (exn_cls e) = true ->
      match print_outcome E e with
      | None =>
          fst (construct_subtopics E task data config l st) =
          Val (ObjList l)
      | Some (e', _) =>
          fst (construct_subtopics E task data config l st) = Exc e'
      end
  | (Val o, _) =>
      fst (construct_subtopics E task data config l st) = Val o
  end.
Proof.
  intros Hframe. rewrite construct_subtopics_run. split.
  - destruct (construct_subtopics_try_outcome E task data config l st)
      as [[e ->] | (prompt & model & parser & ->)]; simpl.
    + destruct (is_Exception (exn_cls e)); [| done].
      by destruct (print_outcome E e) as [[? ?]|].
    + specialize (Hframe prompt model parser).
      destruct (chain_invoke E prompt model parser _ (heap st))
        as [[output|e] h]; simpl in *; [done |].
      destruct (is_Exception (exn_cls e)); [| done].
      by destruct (print_outcome E e) as [[? ?]|].
  - destruct (construct_subtopics_try E task data config l st)
      as [[o|e] st1]; [done |].
    intros ->. by destruct (print_outcome E e) as [[? ?]|].
Qed.

Lemma subtopics_list_not_mutated_witness :
  heap (snd (construct_subtopics env_hello "topic A" "ctx" config_gpt
               default_subtopics initial_state)) !! default_subtopics =
  Some [].
Proof.
  exact (proj1 (subtopics_list_not_mutated env_hello "topic A" "ctx"
                  config_gpt default_subtopics initial_state
                  (fun _ _ _ => eq_refl))).
Defined.

(** * Further properties *)

(** ** create_chat_completion *)

Lemma over_limit_iff (max_tokens : option Z) :
  max_tokens_over_limit max_tokens = true <->
  exists n, max_tokens = Some n /\ 16001 < n.
Proof.
  destruct max_tokens as [n|]; simpl.
  - rewrite Z.ltb_lt. split; [by exists n | by intros (? & [= <-] & ?)].
  - split; [done | by intros (? & ? & ?)].
Qed.

(** X1: the call stops before [get_llm] is called exactly when validation
    fails, that is, when the model is [None] or [max_tokens] is an integer
    above 16001 (a count is refused from 16002 on); it then raises a
    [ValueError] and nothing at all has happened.  In every other case the
    first thing that happens is the call of [get_llm] for [llm_provider]. *)
Theorem get_llm_called_iff_valid E messages model temperature
    max_tokens llm_provider stream websocket kw cb effort t :
  let run :=
    create_chat_completion E messages model temperature max_tokens
      llm_provider stream websocket kw cb effort t in
  (snd run = t <->
   model = None \/ exists n, max_tokens = Some n /\ 16001 < n) /\
  (snd run = t -> exists msg, fst run = Exc (mk_exn ValueError msg)) /\
  (snd run <> t ->
   exists kwargs new, snd run = t ++ EvGetLLM llm_provider kwargs :: new).
Proof.
  simpl. destruct model as [model|].
  2: { repeat split; [by left | by eexists | done]. }
  destruct (max_tokens_over_limit max_tokens) eqn:Hv.
  { rewrite over_limit_rejected by done. simpl.
    repeat split; [| by eexists | done].
    intros _. right. by apply over_limit_iff. }
  assert (Hno : ~ (Some model = None \/
                   exists n, max_tokens = Some n /\ 16001 < n)).
  { intros [? | Hn]; [done |]. apply over_limit_iff in Hn. congruence. }
  rewrite create_chat_completion_run by done. simpl.
  set (kwargs := completion_kwargs model kw temperature max_tokens effort).
  assert (Hgrow : forall (r : res string) new,
    (snd (r, t ++ EvGetLLM llm_provider kwargs :: new) = t <->
     Some model = None \/ exists n, max_tokens = Some n /\ 16001 < n) /\
    (snd (r, t ++ EvGetLLM llm_provider kwargs :: new) = t ->
     exists msg, r = Exc (mk_exn ValueError msg)) /\
    (snd (r, t ++ EvGetLLM llm_provider kwargs :: new) <> t ->
     exists kwargs0 new0,
       snd (r, t ++ EvGetLLM llm_provider kwargs :: new) =
       t ++ EvGetLLM llm_provider kwargs0 :: new0)).
  { intros r new.
    assert (Hne : snd (r, t ++ EvGetLLM llm_provider kwargs :: new) <> t).
    { simpl. intros Ht. apply (f_equal length) in Ht.
      rewrite length_app in Ht. simpl in Ht. lia. }
    repeat split; try done. intros _. by eexists _, _. }
  destruct (get_llm _ _ _) as [provider|e]; [| apply (Hgrow _ [])].
  destruct (get_chat_response _ _ _ _ _ _) as [response|e].
  - callback_cases cb; rewrite <- ?app_assoc; apply Hgrow.
  - rewrite <- ?app_assoc; apply Hgrow.
Qed.

(** X2: a response handed back is the provider's own, unaltered, obtained
    from the provider resolved for [llm_provider] with the shaped
    [kwargs], the chat call having received [messages], [stream] and
    [websocket] as given. *)
Theorem response_is_providers E messages model temperature max_tokens
    llm_provider stream websocket kw cb effort t response t' :
  create_chat_completion E messages (Some model) temperature max_tokens
    llm_provider stream websocket kw cb effort t = (Val response, t') ->
  let kwargs := completion_kwargs model kw temperature max_tokens effort in
  exists provider,
    get_llm E llm_provider kwargs = Val provider /\
    get_chat_response E provider (t ++ [EvGetLLM llm_provider kwargs])
      messages stream websocket = Val response.
Proof.
  intros Hrun. simpl.
  destruct (max_tokens_over_limit max_tokens) eqn:Hv.
  { by rewrite over_limit_rejected in Hrun. }
  rewrite create_chat_completion_run in Hrun by done. simpl in Hrun.
  destruct (get_llm _ _ _) as [provider|e]; [| done].
  exists provider. split; [done |].
  destruct (get_chat_response _ _ _ _ _ _) as [r|e]; [| done].
  callback_cases cb; congruence.
Qed.

Lemma response_is_providers_witness :
  exists provider,
    get_llm env_hello (Some "openai")
      (completion_kwargs "gpt-4" None default_temperature
         default_max_tokens default_reasoning_effort) = Val provider /\
    get_chat_response env_hello provider
      ([] ++ [EvGetLLM (Some "openai")
                (completion_kwargs "gpt-4" None default_temperature
                   default_max_tokens default_reasoning_effort)])
      hi true (Some 4%nat) = Val "hello".
Proof.
  exact (response_is_providers env_hello hi "gpt-4" default_temperature
           default_max_tokens (Some "openai") true (Some 4%nat) None
           (Some add_costs) default_reasoning_effort [] "hello" _ eq_refl).
Defined.

(** X3: when the provider cannot be resolved, the failure of [get_llm]
    reaches the caller unchanged; no chat call is made and the callback is
    not invoked. *)
Theorem resolution_failure_propagates E messages model temperature
    max_tokens llm_provider stream websocket kw cb effort t e :
  max_tokens_over_limit max_tokens = false ->
  get_llm E llm_provider
    (completion_kwargs model kw temperature max_tokens effort) = Exc e ->
  create_chat_completion E messages (Some model) temperature max_tokens
    llm_provider stream websocket kw cb effort t =
  (Exc e,
   t ++ [EvGetLLM llm_provider
           (completion_kwargs model kw temperature max_tokens effort)]).
Proof.
  intros Hv Hp. rewrite create_chat_completion_run by done. simpl.
  by rewrite Hp.
Qed.

Lemma resolution_failure_propagates_witness :
  create_chat_completion env_no_provider hi (Some "gpt-4")
    default_temperature default_max_tokens (Some "nowhere") false None None
    (Some add_costs) default_reasoning_effort [] =
  (Exc unknown_provider,
   [EvGetLLM (Some "nowhere")
      (completion_kwargs "gpt-4" None default_temperature default_max_tokens
         default_reasoning_effort)]).
Proof.
  exact (resolution_failure_propagates env_no_provider hi "gpt-4"
           default_temperature default_max_tokens (Some "nowhere") false
           None None (Some add_costs) default_reasoning_effort []
           unknown_provider eq_refl eq_refl).
Defined.

(** X4: whatever the collaborators do, the events of a call are an initial
    part of: one resolution, one chat call, one estimate, one callback.
    There is never a second resolution or chat call, and the failure
    message after the loop is never logged. *)
Theorem events_of_a_call E messages model temperature max_tokens
    llm_provider stream websocket kw cb effort t :
  exists new,
    snd (create_chat_completion E messages model temperature max_tokens
           llm_provider stream websocket kw cb effort t) = t ++ new /\
    (new = [] \/
     exists kwargs,
       new = [EvGetLLM llm_provider kwargs] \/
       new = [EvGetLLM llm_provider kwargs;
              EvChatResponse messages stream websocket] \/
       exists response,
         new = [EvGetLLM llm_provider kwargs;
                EvChatResponse messages stream websocket;
                EvEstimateCost (py_str E messages) response;
                EvCostCallback
                  (estimate_llm_cost E (py_str E messages) response)]) /\
    (count_events is_get_llm new <= 1)%nat /\
    (count_events is_chat_response new <= 1)%nat /\
    count_events is_log_error new = 0%nat.
Proof.
  destruct model as [model|].
  2: { exists []. simpl. rewrite app_nil_r.
       split; [done |]. split; [by left |].
       cbv [count_events]; simpl. auto. }
  destruct (max_tokens_over_limit max_tokens) eqn:Hv.
  { rewrite over_limit_rejected by done. exists []. simpl.
    rewrite app_nil_r. split; [done |]. split; [by left |].
    cbv [count_events]; simpl. auto. }
  rewrite create_chat_completion_run by done. simpl.
  set (kwargs := completion_kwargs model kw temperature max_tokens effort).
  destruct (get_llm _ _ _) as [provider|e].
  2: { exists [EvGetLLM llm_provider kwargs]. split; [done |].
       split; [right; exists kwargs; by left |].
       cbv [count_events]; simpl. auto. }
  assert (Htwo : exists new,
    (t ++ [EvGetLLM llm_provider kwargs])
      ++ [EvChatResponse messages stream websocket] = t ++ new /\
    (new = [] \/
     exists kwargs,
       new = [EvGetLLM llm_provider kwargs] \/
       new = [EvGetLLM llm_provider kwargs;
              EvChatResponse messages stream websocket] \/
       exists response,
         new = [EvGetLLM llm_provider kwargs;
                EvChatResponse messages stream websocket;
                EvEstimateCost (py_str E messages) response;
                EvCostCallback
                  (estimate_llm_cost E (py_str E messages) response)]) /\
    (count_events is_get_llm new <= 1)%nat /\
    (count_events is_chat_response new <= 1)%nat /\
    count_events is_log_error new = 0%nat).
  { exists [EvGetLLM llm_provider kwargs;
            EvChatResponse messages stream websocket].
    split; [by rewrite <- app_assoc |].
    split; [right; exists kwargs; right; by left |].
    cbv [count_events]; simpl. auto. }
  destruct (get_chat_response _ _ _ _ _ _) as [response|e]; [| exact Htwo].
  destruct cb as [cb|]; [| exact Htwo].
  destruct (cb_bool cb) as [[|]|e]; [| exact Htwo | exact Htwo].
  assert (Hfour : exists new,
    ((t ++ [EvGetLLM llm_provider kwargs])
       ++ [EvChatResponse messages stream websocket])
      ++ [EvEstimateCost (py_str E messages) response;
          EvCostCallback
            (estimate_llm_cost E (py_str E messages) response)] =
    t ++ new /\
    (new = [] \/
     exists kwargs,
       new = [EvGetLLM llm_provider kwargs] \/
       new = [EvGetLLM llm_provider kwargs;
              EvChatResponse messages stream websocket] \/
       exists response,
         new = [EvGetLLM llm_provider kwargs;
                EvChatResponse messages stream websocket;
                EvEstimateCost (py_str E messages) response;
                EvCostCallback
                  (estimate_llm_cost E (py_str E messages) response)]) /\
    (count_events is_get_llm new <= 1)%nat /\
    (count_events is_chat_response new <= 1)%nat /\
    count_events is_log_error new = 0%nat).
  { exists [EvGetLLM llm_provider kwargs;
            EvChatResponse messages stream websocket;
            EvEstimateCost (py_str E messages) response;
            EvCostCallback
              (estimate_llm_cost E (py_str E messages) response)].
    split; [by rewrite <- !app_assoc |].
    split; [right; exists kwargs; right; right; by exists response |].
    cbv [count_events]; simpl. auto. }
  destruct (cb_call cb _); exact Hfour.
Qed.

Lemma kwargs_other_lookup model kw temperature max_tokens effort k :
  k <> "model" -> k <> "reasoning_effort" -> k <> "temperature" ->
  k <> "max_tokens" ->
  completion_kwargs model kw temperature max_tokens effort !! k =
  or_empty kw !! k.
Proof.
  intros Hm Hr Ht Hx. destruct (is_reasoning_model model) eqn:Hfam.
  - rewrite kwargs_reasoning_lookup, decide_False by done.
    by apply spread_model_other.
  - rewrite kwargs_plain_lookup, !decide_False by done.
    by apply spread_model_other.
Qed.

(** X5: a key [llm_provider] in the caller's [llm_kwargs] collides with
    the positional parameter of [get_llm]: the call fails with a
    [TypeError] whatever the registry holds, and no chat call is made. *)
Theorem llm_provider_key_collides E messages model temperature max_tokens
    llm_provider stream websocket kw cb effort t v :
  max_tokens_over_limit max_tokens = false ->
  or_empty kw !! "llm_provider" = Some v ->
  create_chat_completion E messages (Some model) temperature max_tokens
    llm_provider stream websocket kw cb effort t =
  (Exc (mk_exn TypeError
          "get_llm() got multiple values for argument 'llm_provider'"),
   t ++ [EvGetLLM llm_provider
           (completion_kwargs model kw temperature max_tokens effort)]).
Proof.
  intros Hv Hk. rewrite create_chat_completion_run by done. simpl.
  unfold get_llm. by rewrite kwargs_other_lookup, Hk.
Qed.

Lemma llm_provider_key_collides_witness :
  create_chat_completion env_hello hi (Some "gpt-4") default_temperature
    default_max_tokens (Some "openai") false None
    (Some {["llm_provider" := PStr "azure"]}) None
    default_reasoning_effort [] =
  (Exc (mk_exn TypeError
          "get_llm() got multiple values for argument 'llm_provider'"),
   [] ++ [EvGetLLM (Some "openai")
            (completion_kwargs "gpt-4"
               (Some {["llm_provider" := PStr "azure"]})
               default_temperature default_max_tokens
               default_reasoning_effort)]).
Proof.
  exact (llm_provider_key_collides env_hello hi "gpt-4" default_temperature
           default_max_tokens (Some "openai") false None
           (Some {["llm_provider" := PStr "azure"]}) None
           default_reasoning_effort [] (PStr "azure") eq_refl eq_refl).
Defined.

(** X6: for a reasoning-family model the arguments [temperature] and
    [max_tokens] have no influence on the call, as long as [max_tokens]
    passes validation. *)
Theorem reasoning_model_ignores_sampling E messages model temperature
    temperature' max_tokens max_tokens' llm_provider stream websocket kw cb
    effort t :
  is_reasoning_model model = true ->
  max_tokens_over_limit max_tokens = false ->
  max_tokens_over_limit max_tokens' = false ->
  create_chat_completion E messages (Some model) temperature max_tokens
    llm_provider stream websocket kw cb effort t =
  create_chat_completion E messages (Some model) temperature' max_tokens'
    llm_provider stream websocket kw cb effort t.
Proof.
  intros Hr Hv Hv'. unfold create_chat_completion, completion_kwargs.
  by rewrite Hv, Hv', Hr.
Qed.

Lemma reasoning_model_ignores_sampling_witness :
  create_chat_completion env_hello hi (Some "o3-mini") (Some (4 # 10)%Q)
    (Some 4000) (Some "openai") false None None (Some add_costs)
    (Some "high") [] =
  create_chat_completion env_hello hi (Some "o3-mini") None None
    (Some "openai") false None None (Some add_costs) (Some "high") [].
Proof.
  exact (reasoning_model_ignores_sampling env_hello hi "o3-mini"
           (Some (4 # 10)%Q) None (Some 4000) None (Some "openai") false
           None None (Some add_costs) (Some "high") []
           eq_refl eq_refl eq_refl).
Defined.

(** X8: for a model outside the reasoning family the argument
    [reasoning_effort] has no influence on the call. *)
Theorem other_model_ignores_effort E messages model temperature max_tokens
    llm_provider stream websocket kw cb effort effort' t :
  is_reasoning_model model = false ->
  create_chat_completion E messages (Some model) temperature max_tokens
    llm_provider stream websocket kw cb effort t =
  create_chat_completion E messages (Some model) temperature max_tokens
    llm_provider stream websocket kw cb effort' t.
Proof.
  intros Hr. unfold create_chat_completion, completion_kwargs.
  by rewrite Hr.
Qed.

Lemma other_model_ignores_effort_witness :
  create_chat_completion env_hello hi (Some "gpt-4") default_temperature
    default_max_tokens (Some "openai") false None None None (Some "high")
    [] =
  create_chat_completion env_hello hi (Some "gpt-4") default_temperature
    default_max_tokens (Some "openai") false None None None None [].
Proof.
  exact (other_model_ignores_effort env_hello hi "gpt-4"
           default_temperature default_max_tokens (Some "openai") false
           None None None (Some "high") None [] eq_refl).
Defined.

(** X9: the keys handed to the provider are [model], the keys of the
    caller's [llm_kwargs], and the keys of the model's family
    ([reasoning_effort], or [temperature] and [max_tokens]); nothing
    else. *)
Theorem kwargs_keys model kw temperature max_tokens effort :
  dom (completion_kwargs model kw temperature max_tokens effort) =
  ({["model"]} ∪ dom (or_empty kw)) ∪
  (if is_reasoning_model model then {["reasoning_effort"]}
   else {["temperature"; "max_tokens"]} : gset string).
Proof.
  unfold completion_kwargs, dict_spread.
  destruct (is_reasoning_model model).
  - rewrite dom_insert_L, dom_union_L, dom_singleton_L.
    apply set_eq. intros k. rewrite !elem_of_union. tauto.
  - rewrite !dom_insert_L, dom_union_L, dom_singleton_L.
    apply set_eq. intros k. rewrite !elem_of_union. tauto.
Qed.

(** ** construct_subtopics *)

Lemma subtopics_kwargs_other config reasoning k :
  k <> "model" -> k <> "reasoning_effort" -> k <> "temperature" ->
  k <> "max_tokens" ->
  subtopics_kwargs config reasoning !! k =
  or_empty (Config.llm_kwargs config) !! k.
Proof.
  intros Hm Hr Ht Hx. unfold subtopics_kwargs. destruct reasoning.
  - rewrite lookup_insert_ne by done. rewrite spread_lookup.
    destruct (or_empty _ !! k); [done |]. by rewrite lookup_singleton_ne.
  - rewrite !lookup_insert_ne by done. rewrite spread_lookup.
    destruct (or_empty _ !! k); [done |]. by rewrite lookup_singleton_ne.
Qed.

(** X10: for a reasoning-family model the provider is given
    [reasoning_effort = "high"], whatever the configuration's [llm_kwargs]
    say, and the configured temperature and token limit are not written;
    for any other model the configured temperature and token limit are
    written as they are, with no bound applied to the limit, and
    [reasoning_effort] is present only if [llm_kwargs] carries it. *)
Theorem subtopics_kwargs_by_family config reasoning :
  let kwargs := subtopics_kwargs config reasoning in
  let extra := or_empty (Config.llm_kwargs config) in
  if reasoning then
    kwargs !! "reasoning_effort" = Some (PStr "high") /\
    kwargs !! "temperature" = extra !! "temperature" /\
    kwargs !! "max_tokens" = extra !! "max_tokens"
  else
    kwargs !! "temperature" =
      Some (of_opt_float (Config.temperature config)) /\
    kwargs !! "max_tokens" =
      Some (of_opt_int (Config.smart_token_limit config)) /\
    kwargs !! "reasoning_effort" = extra !! "reasoning_effort".
Proof.
  simpl. unfold subtopics_kwargs. destruct reasoning.
  - rewrite lookup_insert_eq, !lookup_insert_ne, !spread_lookup by done.
    repeat split;
      by destruct (or_empty _ !! _); [| rewrite lookup_singleton_ne].
  - rewrite lookup_insert_eq.
    rewrite (lookup_insert_ne _ "max_tokens" "temperature") by done.
    rewrite lookup_insert_eq, !lookup_insert_ne, spread_lookup by done.
    repeat split.
    by destruct (or_empty _ !! _); [| rewrite lookup_singleton_ne].
Qed.

(** X11: a parsed result was obtained only if a model is configured and
    the provider was resolved for [smart_llm_provider] with the arguments
    shaped for that model's family. *)
Theorem parsed_result_needs_provider E task data config l st out st' :
  construct_subtopics E task data config l st =
    (Val (ObjSubtopics out), st') ->
  exists m provider,
    Config.smart_llm_model config = Some m /\
    get_llm E (Config.smart_llm_provider config)
      (subtopics_kwargs config (is_reasoning_model m)) = Val provider /\
    stdout st' = stdout st.
Proof.
  rewrite construct_subtopics_run.
  unfold construct_subtopics_try, invoke_chain, is_reasoning_opt, lift.
  unfold mbind, M_bind, bind, mret, M_ret, ret, raise; simpl.
  destruct (PydanticOutputParser E) as [parser|e].
  2: { handler_done. }
  destruct (generate_subtopics_prompt E) as [template|e].
  2: { handler_done. }
  destruct (get_format_instructions E parser) as [instructions|e].
  2: { handler_done. }
  destruct (PromptTemplate E template _ instructions) as [prompt|e].
  2: { handler_done. }
  destruct (Config.smart_llm_model config) as [m|].
  2: { by destruct (print_outcome _ _) as [[? ?]|]. }
  destruct (get_llm E _ _) as [provider|e] eqn:Hp.
  2: { handler_done. }
  destruct (provider_llm E provider) as [model|e].
  2: { handler_done. }
  destruct (chain_invoke E prompt model parser _ (heap st))
    as [[output|e] h].
  - intros [= <- <-]. by exists m, provider.
  - handler_done.
Qed.

Lemma parsed_result_needs_provider_witness :
  exists m provider,
    Config.smart_llm_model config_gpt = Some m /\
    get_llm env_hello (Config.smart_llm_provider config_gpt)
      (subtopics_kwargs config_gpt (is_reasoning_model m)) = Val provider /\
    stdout {| heap := <[2%positive := []]> (heap initial_state);
              stdout := [] |} = stdout initial_state.
Proof.
  exact (parsed_result_needs_provider env_hello "topic A" "ctx" config_gpt
           default_subtopics initial_state
           [ {| subtopic_task := "a" |}; {| subtopic_task := "b" |};
             {| subtopic_task := "c" |} ]
           {| heap := <[2%positive := []]> (heap initial_state);
              stdout := [] |}
           eq_refl).
Defined.

(** X12: with no model configured, or with a key [llm_provider] among the
    configuration's [llm_kwargs], the chain is never invoked: the store is
    left as it was and any value the call returns is the list it was
    given, never a parsed result.  If moreover the handler's print
    succeeds, the call does return that list, unless a collaborator let
    out a signal that is no [Exception]. *)
Theorem chain_not_reached E task data config l st :
  Config.smart_llm_model config = None \/
  is_Some (or_empty (Config.llm_kwargs config) !! "llm_provider") ->
  let run := construct_subtopics E task data config l st in
  heap (snd run) = heap st /\
  (forall o, fst run = Val o -> o = ObjList l) /\
  ((forall e, print_outcome E e = None) ->
   fst run = Val (ObjList l) \/
   exists e, fst run = Exc e /\ is_Exception (exn_cls e) = false).
Proof.
  intros Hcfg. simpl. rewrite construct_subtopics_run.
  assert (Hfail : exists e,
            construct_subtopics_try E task data config l st = (Exc e, st)).
  { unfold construct_subtopics_try, invoke_chain, is_reasoning_opt, lift.
    unfold mbind, M_bind, bind, mret, M_ret, ret, raise; simpl.
    destruct (PydanticOutputParser E) as [parser|e]; [| by eexists].
    destruct (generate_subtopics_prompt E) as [template|e]; [| by eexists].
    destruct (get_format_instructions E parser) as [instructions|e];
      [| by eexists].
    destruct (PromptTemplate E template _ instructions) as [prompt|e];
      [| by eexists].
    destruct (Config.smart_llm_model config) as [m|] eqn:Hm;
      [| by eexists].
    destruct Hcfg as [? | [v Hk]]; [done |].
    unfold get_llm. rewrite subtopics_kwargs_other, Hk by done.
    by eexists. }
  destruct Hfail as [e ->].
  destruct (is_Exception (exn_cls e)) eqn:He; simpl.
  - destruct (print_outcome E e) as [[e' written]|] eqn:Hp; simpl.
    + repeat split; [done |]. intros Hprint. by rewrite Hprint in Hp.
    + repeat split; [by intros o [= <-] | by left].
  - repeat split; [done |]. intros _. right. by exists e.
Qed.

Lemma chain_not_reached_witness :
  heap (snd (construct_subtopics env_hello "topic A" "ctx" config_unset
               default_subtopics initial_state)) = heap initial_state /\
  (forall o,
     fst (construct_subtopics env_hello "topic A" "ctx" config_unset
            default_subtopics initial_state) = Val o ->
     o = ObjList default_subtopics) /\
  (fst (construct_subtopics env_hello "topic A" "ctx" config_unset
          default_subtopics initial_state) = Val (ObjList default_subtopics)
   \/ exists e,
        fst (construct_subtopics env_hello "topic A" "ctx" config_unset
               default_subtopics initial_state) = Exc e /\
        is_Exception (exn_cls e) = false).
Proof.
  pose proof (chain_not_reached env_hello "topic A" "ctx" config_unset
                default_subtopics initial_state (or_introl eq_refl))
    as (Hheap & Hval & Hprint).
  exact (conj Hheap (conj Hval (Hprint (fun _ => eq_refl)))).
Defined.

(** ** main.research *)

(** The endpoint by cases on the request and the collaborators. *)
Lemma research_try_run E request t :
  research_try E request t =
  match request !! "query" with
  | None => (Exc (mk_exn (OtherException "KeyError") "'query'"), t)
  | Some query =>
      match GPTResearcher E query with
      | Exc e => (Exc e, t ++ [EvResearcher query])
      | Val r =>
          match conduct_research E r with
          | Exc e => (Exc e, t ++ [EvResearcher query; EvConductResearch r])
          | Val _ =>
              match write_report E r with
              | Exc e =>
                  (Exc e,
                   t ++ [EvResearcher query; EvConductResearch r;
                         EvWriteReport r])
              | Val result =>
                  (Val {["result" := PStr result]},
                   t ++ [EvResearcher query; EvConductResearch r;
                         EvWriteReport r])
              end
          end
      end
  end.
Proof.
  unfold research_try, request_query, call.
  unfold mbind, M_bind, bind, mret, M_ret, ret, raise; simpl.
  destruct (request !! "query") as [query|]; [| done].
  destruct (GPTResearcher E query) as [r|e]; [| done].
  destruct (conduct_research E r) as [[]|e]; rewrite <- ?app_assoc; [| done].
  destruct (write_report E r) as [result|e]; by rewrite <- ?app_assoc.
Qed.


(** X15: a request without the key [query] is answered with the error
    text ['query'], and no researcher is built. *)
Theorem research_missing_query E request t :
  request !! "query" = None ->
  research E request t = (Val {["error" := PStr "'query'"]}, t).
Proof.
  intros Hq. unfold research, try_except.
  by rewrite research_try_run, Hq.
Qed.

Lemma research_missing_query_witness :
  research server_ok {["topic" := PStr "tides"]} [] =
  (Val {["error" := PStr "'query'"]}, []).
Proof.
  exact (research_missing_query server_ok {["topic" := PStr "tides"]} []
           eq_refl).
Defined.

Lemma error_is_no_report (message result : string)
    (t t' : list server_event) :
  (Val ({["error" := PStr message]} : gmap string pyval), t) <>
  (Val {["result" := PStr result]}, t').
Proof.
  intros H.
  apply (f_equal (fun p : res (gmap string pyval) * list server_event =>
                    match fst p with
                    | Val d => d !! "error"
                    | Exc _ => None
                    end)) in H.
  simpl in H. by rewrite lookup_singleton_eq, lookup_singleton_ne in H.
Qed.

Lemma report_answer_inv (result result' : string)
    (t t' : list server_event) :
  (Val ({["result" := PStr result']} : gmap string pyval), t) =
  (Val {["result" := PStr result]}, t') ->
  result' = result /\ t = t'.
Proof.
  intros H. split; [| exact (f_equal snd H)].
  apply (f_equal (fun p : res (gmap string pyval) * list server_event =>
                    match fst p with
                    | Val d => d !! "result"
                    | Exc _ => None
                    end)) in H.
  simpl in H. rewrite !lookup_singleton_eq in H. congruence.
Qed.

(** X16: a report is answered only after the researcher was built from the
    request's query, its research was conducted and its report written, in
    that order and once each; the report is passed on as it is. *)
Theorem research_reports_after_research E request t result t' :
  research E request t = (Val {["result" := PStr result]}, t') ->
  exists query r,
    request !! "query" = Some query /\
    GPTResearcher E query = Val r /\
    conduct_research E r = Val tt /\
    write_report E r = Val result /\
    t' = t ++ [EvResearcher query; EvConductResearch r; EvWriteReport r].
Proof.
  unfold research, try_except. rewrite research_try_run.
  destruct (request !! "query") as [query|] eqn:Hq; simpl.
  2: { intros H. by apply error_is_no_report in H. }
  destruct (GPTResearcher E query) as [r|e] eqn:Hr.
  2: { destruct (is_Exception (exn_cls e)); simpl; [| done].
       intros H. by apply error_is_no_report in H. }
  destruct (conduct_research E r) as [[]|e] eqn:Hc.
  2: { destruct (is_Exception (exn_cls e)); simpl; [| done].
       intros H. by apply error_is_no_report in H. }
  destruct (write_report E r) as [result'|e] eqn:Hw; simpl.
  - intros [-> <-]%report_answer_inv. by exists query, r.
  - destruct (is_Exception (exn_cls e)); simpl; [| done].
    intros H. by apply error_is_no_report in H.
Qed.

Lemma research_reports_after_research_witness :
  exists query r,
    ({["query" := PStr "tides"]} : gmap string pyval) !! "query" =
      Some query /\
    GPTResearcher server_ok query = Val r /\
    conduct_research server_ok r = Val tt /\
    write_report server_ok r = Val "# Report" /\
    [EvResearcher (PStr "tides"); EvConductResearch 5%nat;
     EvWriteReport 5%nat] =
    [] ++ [EvResearcher query; EvConductResearch r; EvWriteReport r].
Proof.
  exact (research_reports_after_research server_ok
           {["query" := PStr "tides"]} [] "# Report" _ eq_refl).
Defined.


